(** * Dynamic resource claims of podman's kube support

    A shallow embedding of [pkg/k8s.io/api/resource/dynamic_resources_podman_types.go]:
    the [DynamicResourcesManager] with its two name-keyed registries and the
    resolution of a [PodResourceClaim] to a device string.

    Go strings are byte sequences and are modelled by [string]; Go maps by
    stdpp's [gmap]; a pointer that the code only compares with [nil] and
    dereferences by [option]; a Go [error] built by [fmt.Errorf] by the
    message it carries, [nil] being [None]. *)

From Stdlib Require Import String Ascii List Bool.
From stdpp Require Import base option gmap strings fin_maps.

Local Open Scope string_scope.

(** ** The API objects *)

(** Modelled from the spec: the declarations of [metav1.TypeMeta] and
    [metav1.ObjectMeta] are not part of this package.  The fields kept are
    those the data model names, [APIVersion] being the schema version of a
    parameter set and [Name] the key under which an object is registered. *)
Module metav1.

Record TypeMeta := {
  Kind : string;
  APIVersion : string
}.

Record ObjectMeta := {
  Name : string;
  Namespace : string
}.

End metav1.

(** Modelled from the spec: the declaration of [v1.PodResourceClaim] is not
    part of this package.  A claim carries a direct claim name, a template
    name, both or neither: the resolver tests each of the two pointer fields
    of [claim.Source] against [nil] on its own. *)
Module v1.

Record ClaimSource := {
  ResourceClaimName : option string;
  ResourceClaimTemplateName : option string
}.

Record PodResourceClaim := {
  Name : string;
  Source : ClaimSource
}.

End v1.

Module v1alpha2.

Record ResourceClaimParametersReference := {
  Name : string
}.

Record ResourceClaimSpec := {
  ResourceClassName : string;
  ParametersRef : ResourceClaimParametersReference
}.

(** Modelled from the spec: the declaration of [v1alpha2.ResourceClaim] is
    not part of this package.  The package reads [rt.Name] and
    [rt.Spec.ParametersRef.Name]; following the data model ("parametersRef:
    the name of a ClaimParameters entry") a template always carries the name
    of a parameter set. *)
Record ResourceClaim := {
  TypeMeta : metav1.TypeMeta;
  ObjectMeta : metav1.ObjectMeta;
  Spec : ResourceClaimSpec
}.

(** The value of [v1alpha2.ResourceClaim{}]. *)
Definition zero : ResourceClaim :=
  {| TypeMeta := {| metav1.Kind := ""; metav1.APIVersion := "" |};
     ObjectMeta := {| metav1.Name := ""; metav1.Namespace := "" |};
     Spec := {| ResourceClassName := "";
                ParametersRef := {| Name := "" |} |} |}.

End v1alpha2.

(** ** Go values *)

(** An [error] made by [fmt.Errorf] is observed through its message. *)
Abbreviation error := string (only parsing).

(** Indexing a [map[string]V] with the comma-ok form.  The map itself may be
    [nil] (here [None]); reading a nil map finds nothing. *)
Definition mapIndex {V : Type} (m : option (gmap string V)) (k : string) : option V :=
  match m with
  | Some entries => entries !! k
  | None => None
  end.

(** ** The package *)

Definition PodmanResourceClassName := "PodmanResourceClass".
Definition ClaimParametersKind := "ClaimParameters".
Definition CDIClaimParametersApiVersion := "cdi.resource.podman.io/v1".
Definition CDIResourceClassName := "cdidevice.podman.io".
Definition SimpleDeviceClaimParametersApiVersion := "simpledevice.resource.podman.io/v1".
Definition SimpleDeviceResourceClassName := "simpledevice.podman.io".

Record ClaimParameters := {
  TypeMeta : metav1.TypeMeta;
  ObjectMeta : metav1.ObjectMeta;
  Spec : option (gmap string string)
}.

(** The two maps are allocated by [NewDynamicDevicesResourceManager].  The
    methods have value receivers, but a copy of the manager holds the same two
    maps, so a write through any copy is seen by all of them: the record below
    is that shared store, which every method call reads and writes. *)
Record DynamicResourcesManager := {
  resourceClaimParameters : gmap string ClaimParameters;
  resourceClaimTemplates : gmap string v1alpha2.ResourceClaim
}.

Definition NewDynamicDevicesResourceManager : DynamicResourcesManager :=
  {| resourceClaimParameters := ∅; resourceClaimTemplates := ∅ |}.

(** *** Methods run against the manager's store *)

Definition Method (A : Type) : Type :=
  DynamicResourcesManager -> A * DynamicResourcesManager.

Definition ret {A : Type} (a : A) : Method A := fun dm => (a, dm).

Definition bind {A B : Type} (c : Method A) (k : A -> Method B) : Method B :=
  fun dm => let '(a, dm') := c dm in k a dm'.

Definition gets {A : Type} (f : DynamicResourcesManager -> A) : Method A :=
  fun dm => (f dm, dm).

Definition modify (f : DynamicResourcesManager -> DynamicResourcesManager) : Method unit :=
  fun dm => (tt, f dm).

Declare Scope method_scope.
Delimit Scope method_scope with method.
Notation "x <- c ;; k" := (bind c (fun x => k))
  (at level 100, c at next level, right associativity) : method_scope.
Notation "c ;; k" := (bind c (fun _ => k))
  (at level 100, right associativity) : method_scope.
Local Open Scope method_scope.

(** [dm.resourceClaimParameters[name] = p] *)
Definition storeClaimParameters (name : string) (p : ClaimParameters) : Method unit :=
  modify (fun dm =>
    {| resourceClaimParameters := <[name := p]> (resourceClaimParameters dm);
       resourceClaimTemplates := resourceClaimTemplates dm |}).

(** [dm.resourceClaimTemplates[name] = rt] *)
Definition storeResourceClaimTemplate (name : string) (rt : v1alpha2.ResourceClaim) : Method unit :=
  modify (fun dm =>
    {| resourceClaimParameters := resourceClaimParameters dm;
       resourceClaimTemplates := <[name := rt]> (resourceClaimTemplates dm) |}).

Definition AddClaimParameters (p : ClaimParameters) : Method (option error) :=
  found <- gets (fun dm => resourceClaimParameters dm !! metav1.Name (ObjectMeta p)) ;;
  match found with
  | Some _ => ret (Some "duplicate resource claim parameters defined")
  | None =>
      storeClaimParameters (metav1.Name (ObjectMeta p)) p ;;
      ret None
  end.

Definition AddResourceClaimTemplate (rt : v1alpha2.ResourceClaim) : Method (option error) :=
  found <- gets (fun dm =>
             resourceClaimTemplates dm !! metav1.Name (v1alpha2.ObjectMeta rt)) ;;
  match found with
  | Some _ => ret (Some "duplicate resource claim template defined")
  | None =>
      storeResourceClaimTemplate (metav1.Name (v1alpha2.ObjectMeta rt)) rt ;;
      ret None
  end.

Definition resolveK8sPodResourceClaimToResourceClaimTemplate (claim : v1.PodResourceClaim)
  : Method (v1alpha2.ResourceClaim * option error) :=
  match v1.ResourceClaimTemplateName (v1.Source claim) with
  | None => ret (v1alpha2.zero, Some "claim source missing template name")
  | Some templateName =>
      found <- gets (fun dm => resourceClaimTemplates dm !! templateName) ;;
      match found with
      | None => ret (v1alpha2.zero, Some "Pod Resource Claim Source not found")
      | Some resourceClaimTemplate => ret (resourceClaimTemplate, None)
      end
  end.

(** [fmt.Sprintf("%s/%s=%s", vendorPart, devicePart, namePart)] *)
Definition cdiQualifier (vendorPart devicePart namePart : string) : string :=
  vendorPart +:+ "/" +:+ devicePart +:+ "=" +:+ namePart.

(** [fmt.Errorf(errTmpl, field)] with
    [errTmpl = "missing %s parameter of CDI claim parameter resource"]. *)
Definition errTmpl (field : string) : error :=
  "missing " +:+ field +:+ " parameter of CDI claim parameter resource".

Definition resolveResourceClaimTemplateToDevice (rt : v1alpha2.ResourceClaim)
  : Method (string * option error) :=
  found <- gets (fun dm =>
             resourceClaimParameters dm
               !! v1alpha2.Name (v1alpha2.ParametersRef (v1alpha2.Spec rt))) ;;
  match found with
  | None => ret ("", Some "failed to resolve resource claim parameters")
  | Some parameters =>
      let apiVersion := metav1.APIVersion (TypeMeta parameters) in
      if String.eqb apiVersion SimpleDeviceClaimParametersApiVersion then
        match mapIndex (Spec parameters) "hostpath" with
        | None => ret ("", Some "missing hostpath in simple device resource claim parameters")
        | Some device => ret (device, None)
        end
      else if String.eqb apiVersion CDIClaimParametersApiVersion then
        match mapIndex (Spec parameters) "device" with
        | None => ret ("", Some (errTmpl "device"))
        | Some devicePart =>
            match mapIndex (Spec parameters) "vendor" with
            | None => ret ("", Some (errTmpl "vendor"))
            | Some vendorPart =>
                match mapIndex (Spec parameters) "name" with
                | None => ret ("", Some (errTmpl "name"))
                | Some namePart =>
                    ret (cdiQualifier vendorPart devicePart namePart, None)
                end
            end
        end
      else
        ret ("", Some ("unsupported resource claim parameter apiVersion: " +:+ apiVersion))
  end.

(** [fmt.Errorf(errorMsgTmpl, detail)] with
    [errorMsgTmpl = "failed to resolve resource claim to device: %s"]; an
    [error] passed for [%s] is printed as its message. *)
Definition errorMsgTmpl (detail : string) : error :=
  "failed to resolve resource claim to device: " +:+ detail.

(** The resolver receives a pointer to the claim and only reads through it;
    [claim] is the claim pointed to. *)
Definition ResolveK8sPodResourceClaimToDevice (claim : v1.PodResourceClaim)
  : Method (string * option error) :=
  match v1.ResourceClaimName (v1.Source claim) with
  | Some _ => ret ("", Some (errorMsgTmpl "resource claim should be nil"))
  | None =>
      found <- resolveK8sPodResourceClaimToResourceClaimTemplate claim ;;
      let '(resourceClaimTemplate, err) := found in
      match err with
      | Some e => ret ("", Some (errorMsgTmpl e))
      | None => resolveResourceClaimTemplateToDevice resourceClaimTemplate
      end
  end.

(** ** The error kinds of the design

    The code returns plain messages; the design speaks of error kinds.
    [errorKind] reads the kind off a message, [None] for a message the
    package never produces. *)

Inductive ErrorKind :=
| DuplicateEntry
| TemplateNotFound
| ParametersNotFound
| MalformedClaim
| UnsupportedClaimShape
| MissingField (field : string)
| UnsupportedSchema (schema : string).

Fixpoint stripPrefix (prefix s : string) : option string :=
  match prefix with
  | EmptyString => Some s
  | String a prefix' =>
      match s with
      | EmptyString => None
      | String b s' => if Ascii.eqb a b then stripPrefix prefix' s' else None
      end
  end.

Definition errorKind (msg : error) : option ErrorKind :=
  match stripPrefix "unsupported resource claim parameter apiVersion: " msg with
  | Some schema => Some (UnsupportedSchema schema)
  | None =>
      if String.eqb msg "duplicate resource claim parameters defined" then Some DuplicateEntry
      else if String.eqb msg "duplicate resource claim template defined" then Some DuplicateEntry
      else if String.eqb msg (errorMsgTmpl "resource claim should be nil") then
        Some UnsupportedClaimShape
      else if String.eqb msg (errorMsgTmpl "claim source missing template name") then
        Some MalformedClaim
      else if String.eqb msg (errorMsgTmpl "Pod Resource Claim Source not found") then
        Some TemplateNotFound
      else if String.eqb msg "failed to resolve resource claim parameters" then
        Some ParametersNotFound
      else if String.eqb msg "missing hostpath in simple device resource claim parameters" then
        Some (MissingField "hostpath")
      else if String.eqb msg (errTmpl "device") then Some (MissingField "device")
      else if String.eqb msg (errTmpl "vendor") then Some (MissingField "vendor")
      else if String.eqb msg (errTmpl "name") then Some (MissingField "name")
      else None
  end.

(** The keys a CDI parameter set must carry, in the order they are checked,
    and the first of them that a spec map lacks. *)
Definition cdiFields : list string := ["device"; "vendor"; "name"].

Definition firstMissing (spec : option (gmap string string)) : option string :=
  List.find (fun field => bool_decide (mapIndex spec field = None)) cdiFields.

(** ** Printing the state

    [PrintState] writes to standard output: a heading, one line for each
    template, a second heading, one line for each parameter set.  A [range]
    over a Go map visits every entry once, in an order the language leaves
    open; the output is therefore given for each order of visit, and
    [PrintState] relates a manager to every output it can produce.  The
    output is the list of the writes, one for each [Println] or [Printf]. *)

Definition newline : string := String "010"%char EmptyString.

(** [fmt.Printf("  %s - %s\n", apiVersion, name)] *)
Definition stateLine (apiVersion name : string) : string :=
  "  " +:+ apiVersion +:+ " - " +:+ name +:+ newline.

Definition templateLine (t : v1alpha2.ResourceClaim) : string :=
  stateLine (metav1.APIVersion (v1alpha2.TypeMeta t)) (metav1.Name (v1alpha2.ObjectMeta t)).

Definition parametersLine (t : ClaimParameters) : string :=
  stateLine (metav1.APIVersion (TypeMeta t)) (metav1.Name (ObjectMeta t)).

(** The values of [m] in an order in which [range m] can visit them. *)
Definition ranges {V : Type} (m : gmap string V) (visited : list V) : Prop :=
  visited ≡ₚ (map_to_list m).*2.

Definition printStateVisiting (templates : list v1alpha2.ResourceClaim)
    (parameters : list ClaimParameters) : list string :=
  (("Templates" +:+ newline) :: map templateLine templates)
  ++ (("Claim parameters" +:+ newline) :: map parametersLine parameters).

Definition PrintState (dm : DynamicResourcesManager) (stdout : list string) : Prop :=
  exists templates parameters,
    ranges (resourceClaimTemplates dm) templates
    /\ ranges (resourceClaimParameters dm) parameters
    /\ stdout = printStateVisiting templates parameters.

(** ** Sequences of calls *)

Inductive Call :=
| CallAddClaimParameters (p : ClaimParameters)
| CallAddResourceClaimTemplate (rt : v1alpha2.ResourceClaim)
| CallResolve (claim : v1.PodResourceClaim).

(** One call on the manager, its results dropped. *)
Definition perform (c : Call) : Method unit :=
  match c with
  | CallAddClaimParameters p => AddClaimParameters p ;; ret tt
  | CallAddResourceClaimTemplate rt => AddResourceClaimTemplate rt ;; ret tt
  | CallResolve claim => ResolveK8sPodResourceClaimToDevice claim ;; ret tt
  end.

Fixpoint performAll (cs : list Call) : Method unit :=
  match cs with
  | [] => ret tt
  | c :: cs' => perform c ;; performAll cs'
  end.

(** Every entry of either registry sits under the name it carries. *)
Definition keyedByName (dm : DynamicResourcesManager) : Prop :=
  (forall k p, resourceClaimParameters dm !! k = Some p -> metav1.Name (ObjectMeta p) = k)
  /\ (forall k rt, resourceClaimTemplates dm !! k = Some rt
                  -> metav1.Name (v1alpha2.ObjectMeta rt) = k).

(** Whether the byte [c] occurs in [s]. *)
Fixpoint contains (c : ascii) (s : string) : bool :=
  match s with
  | EmptyString => false
  | String a s' => if Ascii.eqb a c then true else contains c s'
  end.

(** The keys of a spec map that the resolver can read. *)
Definition readKeys : list string := ["hostpath"; "device"; "vendor"; "name"].

(** ** A worked scenario *)

Module Scenario.

Definition parameters (name apiVersion : string) (spec : list (string * string))
  : ClaimParameters :=
  {| TypeMeta := {| metav1.Kind := ClaimParametersKind; metav1.APIVersion := apiVersion |};
     ObjectMeta := {| metav1.Name := name; metav1.Namespace := "" |};
     Spec := Some (list_to_map spec) |}.

Definition template (name ref : string) : v1alpha2.ResourceClaim :=
  {| v1alpha2.TypeMeta := {| metav1.Kind := "ResourceClaimTemplate";
                             metav1.APIVersion := "resource.k8s.io/v1alpha2" |};
     v1alpha2.ObjectMeta := {| metav1.Name := name; metav1.Namespace := "" |};
     v1alpha2.Spec := {| v1alpha2.ResourceClassName := PodmanResourceClassName;
                         v1alpha2.ParametersRef := {| v1alpha2.Name := ref |} |} |}.

Definition byTemplate (name : string) : v1.PodResourceClaim :=
  {| v1.Name := "claim";
     v1.Source := {| v1.ResourceClaimName := None;
                     v1.ResourceClaimTemplateName := Some name |} |}.

Definition byName (name : string) (templateName : option string) : v1.PodResourceClaim :=
  {| v1.Name := "claim";
     v1.Source := {| v1.ResourceClaimName := Some name;
                     v1.ResourceClaimTemplateName := templateName |} |}.

Definition foo := parameters "foo" SimpleDeviceClaimParametersApiVersion
                    [("hostpath", "/dev/foo")].
Definition gpu := parameters "gpu" CDIClaimParametersApiVersion
                    [("vendor", "acme"); ("device", "gpu"); ("name", "0")].
Definition novendor := parameters "novendor" CDIClaimParametersApiVersion
                    [("device", "gpu"); ("name", "0")].
Definition bare := parameters "bare" SimpleDeviceClaimParametersApiVersion [].
Definition blank := parameters "blank" CDIClaimParametersApiVersion [].
Definition odd := parameters "odd" "other.resource.podman.io/v1"
                    [("hostpath", "/dev/foo"); ("vendor", "acme");
                     ("device", "gpu"); ("name", "0")].

(** A simple-device parameter set whose spec map is nil. *)
Definition nospec : ClaimParameters :=
  {| TypeMeta := {| metav1.Kind := ClaimParametersKind;
                    metav1.APIVersion := SimpleDeviceClaimParametersApiVersion |};
     ObjectMeta := {| metav1.Name := "nospec"; metav1.Namespace := "" |};
     Spec := None |}.

(** Every registration below succeeds; the manager they leave behind. *)
Definition setup : Method unit :=
  AddClaimParameters foo ;;
  AddClaimParameters gpu ;;
  AddClaimParameters novendor ;;
  AddClaimParameters bare ;;
  AddClaimParameters blank ;;
  AddClaimParameters odd ;;
  AddResourceClaimTemplate (template "t-foo" "foo") ;;
  AddResourceClaimTemplate (template "t-gpu" "gpu") ;;
  AddResourceClaimTemplate (template "t-novendor" "novendor") ;;
  AddResourceClaimTemplate (template "t-bare" "bare") ;;
  AddResourceClaimTemplate (template "t-blank" "blank") ;;
  AddResourceClaimTemplate (template "t-odd" "odd") ;;
  AddResourceClaimTemplate (template "t-dangling" "nowhere") ;;
  ret tt.

Definition dm : DynamicResourcesManager :=
  snd (setup NewDynamicDevicesResourceManager).

End Scenario.

Example resolve_foo :
  fst (ResolveK8sPodResourceClaimToDevice (Scenario.byTemplate "t-foo") Scenario.dm)
  = ("/dev/foo", None).
Proof. vm_compute. reflexivity. Qed.

Example resolve_gpu :
  fst (ResolveK8sPodResourceClaimToDevice (Scenario.byTemplate "t-gpu") Scenario.dm)
  = ("acme/gpu=0", None).
Proof. vm_compute. reflexivity. Qed.

Example resolve_novendor :
  fst (ResolveK8sPodResourceClaimToDevice (Scenario.byTemplate "t-novendor") Scenario.dm)
  = ("", Some "missing vendor parameter of CDI claim parameter resource").
Proof. vm_compute. reflexivity. Qed.

Example resolve_odd :
  fst (ResolveK8sPodResourceClaimToDevice (Scenario.byTemplate "t-odd") Scenario.dm)
  = ("", Some "unsupported resource claim parameter apiVersion: other.resource.podman.io/v1").
Proof. vm_compute. reflexivity. Qed.

Example resolve_dangling :
  fst (ResolveK8sPodResourceClaimToDevice (Scenario.byTemplate "t-dangling") Scenario.dm)
  = ("", Some "failed to resolve resource claim parameters").
Proof. vm_compute. reflexivity. Qed.

Example resolve_unknown_template :
  fst (ResolveK8sPodResourceClaimToDevice (Scenario.byTemplate "t-none") Scenario.dm)
  = ("", Some "failed to resolve resource claim to device: Pod Resource Claim Source not found").
Proof. vm_compute. reflexivity. Qed.

Example resolve_direct_name :
  fst (ResolveK8sPodResourceClaimToDevice (Scenario.byName "c" (Some "t-foo")) Scenario.dm)
  = ("", Some "failed to resolve resource claim to device: resource claim should be nil").
Proof. vm_compute. reflexivity. Qed.

Example add_foo_twice :
  fst (AddClaimParameters Scenario.foo Scenario.dm)
  = Some "duplicate resource claim parameters defined".
Proof. vm_compute. reflexivity. Qed.

(** ** Resolution only reads the store *)

Lemma resolveK8sPodResourceClaimToResourceClaimTemplate_store claim dm :
  snd (resolveK8sPodResourceClaimToResourceClaimTemplate claim dm) = dm.
Proof.
  unfold resolveK8sPodResourceClaimToResourceClaimTemplate, bind, gets, ret.
  destruct (v1.ResourceClaimTemplateName (v1.Source claim)) as [templateName|]; [|reflexivity].
  destruct (resourceClaimTemplates dm !! templateName); reflexivity.
Qed.

Lemma resolveResourceClaimTemplateToDevice_store rt dm :
  snd (resolveResourceClaimTemplateToDevice rt dm) = dm.
Proof.
  unfold resolveResourceClaimTemplateToDevice, bind, gets, ret.
  destruct (resourceClaimParameters dm !! _) as [parameters|]; [|reflexivity].
  repeat match goal with
         | |- context [if ?b then _ else _] => destruct b
         | |- context [match mapIndex ?m ?k with _ => _ end] => destruct (mapIndex m k)
         end; reflexivity.
Qed.

Lemma ResolveK8sPodResourceClaimToDevice_store claim dm :
  snd (ResolveK8sPodResourceClaimToDevice claim dm) = dm.
Proof.
  unfold ResolveK8sPodResourceClaimToDevice, bind.
  destruct (v1.ResourceClaimName (v1.Source claim)); [reflexivity|].
  pose proof (resolveK8sPodResourceClaimToResourceClaimTemplate_store claim dm) as Hstore.
  destruct (resolveK8sPodResourceClaimToResourceClaimTemplate claim dm)
    as [[resourceClaimTemplate [e|]] dm']; simpl in Hstore; subst dm'.
  - reflexivity.
  - apply resolveResourceClaimTemplateToDevice_store.
Qed.

(** On failure the device string is empty, at each stage. *)
Lemma resolveResourceClaimTemplateToDevice_failure rt dm device e dm' :
  resolveResourceClaimTemplateToDevice rt dm = ((device, Some e), dm') -> device = "".
Proof.
  unfold resolveResourceClaimTemplateToDevice, bind, gets, ret.
  destruct (resourceClaimParameters dm !! _) as [parameters|]; [|congruence].
  repeat match goal with
         | |- context [if ?b then _ else _] => destruct b
         | |- context [match mapIndex ?m ?k with _ => _ end] => destruct (mapIndex m k)
         end; congruence.
Qed.

(** ** Messages and their kinds *)

Lemma errorKind_unsupported schema :
  errorKind ("unsupported resource claim parameter apiVersion: " +:+ schema)
  = Some (UnsupportedSchema schema).
Proof. reflexivity. Qed.

Lemma errorKind_errTmpl field :
  In field cdiFields -> errorKind (errTmpl field) = Some (MissingField field).
Proof.
  unfold cdiFields. simpl.
  intros [<-|[<-|[<-|[]]]]; reflexivity.
Qed.

(** ** The first missing key

    [firstMissing] is defined as soon as one of the three keys is missing; the
    key it gives is missing, and every key checked before it is present. *)

Lemma firstMissing_defined spec k :
  In k cdiFields -> mapIndex spec k = None -> exists field, firstMissing spec = Some field.
Proof.
  unfold firstMissing, cdiFields. simpl.
  intros [<-|[<-|[<-|[]]]] Hmiss;
    repeat match goal with
           | |- context [bool_decide (mapIndex ?m ?f = None)] =>
               destruct (mapIndex m f) eqn:?; simpl
           end;
    try discriminate; eauto.
Qed.

Lemma firstMissing_first spec field :
  firstMissing spec = Some field ->
  mapIndex spec field = None
  /\ forall before after,
       cdiFields = (before ++ field :: after)%list ->
       Forall (fun f => mapIndex spec f <> None) before.
Proof.
  unfold firstMissing, cdiFields. simpl. intros Hfirst.
  repeat match type of Hfirst with
         | context [bool_decide (mapIndex ?m ?f = None)] =>
             destruct (mapIndex m f) eqn:?; simpl in Hfirst
         end;
    try discriminate; injection Hfirst as <-; (split; [assumption|]);
    intros [|a [|b [|c [|]]]] after Heq; simpl in Heq; try discriminate;
    injection Heq as; subst; repeat constructor; congruence.
Qed.

(** ** Resolving a template-form claim through a registered parameter set *)

Section Through.

Variable dm : DynamicResourcesManager.
Variable claim : v1.PodResourceClaim.
Variable T : string.
Variable rt : v1alpha2.ResourceClaim.
Variable p : ClaimParameters.

Hypothesis claim_form : v1.ResourceClaimName (v1.Source claim) = None.
Hypothesis claim_template : v1.ResourceClaimTemplateName (v1.Source claim) = Some T.
Hypothesis registered_template : resourceClaimTemplates dm !! T = Some rt.
Hypothesis registered_parameters :
  resourceClaimParameters dm
    !! v1alpha2.Name (v1alpha2.ParametersRef (v1alpha2.Spec rt)) = Some p.

Lemma resolve_template :
  ResolveK8sPodResourceClaimToDevice claim dm = resolveResourceClaimTemplateToDevice rt dm.
Proof using claim_form claim_template registered_template.
  unfold ResolveK8sPodResourceClaimToDevice, bind.
  rewrite claim_form.
  unfold resolveK8sPodResourceClaimToResourceClaimTemplate, bind, gets, ret.
  rewrite claim_template, registered_template. reflexivity.
Qed.

Lemma resolve_hostpath_missing :
  metav1.APIVersion (TypeMeta p) = SimpleDeviceClaimParametersApiVersion ->
  mapIndex (Spec p) "hostpath" = None ->
  ResolveK8sPodResourceClaimToDevice claim dm
  = (("", Some "missing hostpath in simple device resource claim parameters"), dm).
Proof using All.
  intros Hschema Hmiss. rewrite resolve_template.
  unfold resolveResourceClaimTemplateToDevice, bind, gets, ret.
  rewrite registered_parameters, Hschema, String.eqb_refl, Hmiss. reflexivity.
Qed.

Lemma resolve_cdi_missing field :
  metav1.APIVersion (TypeMeta p) = CDIClaimParametersApiVersion ->
  firstMissing (Spec p) = Some field ->
  ResolveK8sPodResourceClaimToDevice claim dm
  = (("", Some ("missing " +:+ field +:+ " parameter of CDI claim parameter resource")), dm)
  /\ In field cdiFields.
Proof using All.
  intros Hschema Hfirst. rewrite resolve_template.
  unfold resolveResourceClaimTemplateToDevice, bind, gets, ret.
  rewrite registered_parameters, Hschema. simpl.
  unfold firstMissing, cdiFields in Hfirst. simpl in Hfirst.
  repeat match type of Hfirst with
         | context [bool_decide (mapIndex ?m ?k = None)] =>
             destruct (mapIndex m k) eqn:?; simpl in Hfirst
         end;
    try discriminate; injection Hfirst as <-; split; simpl; auto.
Qed.

Lemma resolve_unsupported :
  metav1.APIVersion (TypeMeta p) <> SimpleDeviceClaimParametersApiVersion ->
  metav1.APIVersion (TypeMeta p) <> CDIClaimParametersApiVersion ->
  ResolveK8sPodResourceClaimToDevice claim dm
  = (("", Some ("unsupported resource claim parameter apiVersion: "
                +:+ metav1.APIVersion (TypeMeta p))), dm).
Proof using All.
  intros Hsimple Hcdi. rewrite resolve_template.
  unfold resolveResourceClaimTemplateToDevice, bind, gets, ret.
  rewrite registered_parameters.
  apply String.eqb_neq in Hsimple, Hcdi. rewrite Hsimple, Hcdi. reflexivity.
Qed.

(** C1: through a simple-device parameter set the resolver returns the
    value stored under "hostpath" verbatim, and fails with
    MissingField("hostpath") when the spec map has no such key. *)
Theorem simple_device_resolution :
  metav1.APIVersion (TypeMeta p) = SimpleDeviceClaimParametersApiVersion ->
  (forall v, mapIndex (Spec p) "hostpath" = Some v ->
     ResolveK8sPodResourceClaimToDevice claim dm = ((v, None), dm))
  /\ (mapIndex (Spec p) "hostpath" = None ->
      ResolveK8sPodResourceClaimToDevice claim dm
      = (("", Some "missing hostpath in simple device resource claim parameters"), dm)
      /\ errorKind "missing hostpath in simple device resource claim parameters"
         = Some (MissingField "hostpath")).
Proof using All.
  intros Hschema. split.
  - intros v Hv. rewrite resolve_template.
    unfold resolveResourceClaimTemplateToDevice, bind, gets, ret.
    rewrite registered_parameters, Hschema, String.eqb_refl, Hv. reflexivity.
  - intros Hmiss. split; [exact (resolve_hostpath_missing Hschema Hmiss) | reflexivity].
Qed.

(** C2: through a CDI parameter set carrying "device", "vendor" and "name"
    the resolver returns vendor, "/", device, "=", name. *)
Theorem cdi_device_resolution d v n :
  metav1.APIVersion (TypeMeta p) = CDIClaimParametersApiVersion ->
  mapIndex (Spec p) "device" = Some d ->
  mapIndex (Spec p) "vendor" = Some v ->
  mapIndex (Spec p) "name" = Some n ->
  ResolveK8sPodResourceClaimToDevice claim dm = ((v +:+ "/" +:+ d +:+ "=" +:+ n, None), dm).
Proof using All.
  intros Hschema Hd Hv Hn. rewrite resolve_template.
  unfold resolveResourceClaimTemplateToDevice, bind, gets, ret.
  rewrite registered_parameters, Hschema. simpl.
  rewrite Hd, Hv, Hn. reflexivity.
Qed.

(** C5: through a CDI parameter set that lacks one or more of "device",
    "vendor", "name" the resolver fails with MissingField naming the first
    key, in that order, which the spec map lacks. *)
Theorem cdi_missing_field k :
  metav1.APIVersion (TypeMeta p) = CDIClaimParametersApiVersion ->
  In k cdiFields ->
  mapIndex (Spec p) k = None ->
  exists field,
    firstMissing (Spec p) = Some field
    /\ ResolveK8sPodResourceClaimToDevice claim dm
       = (("", Some ("missing " +:+ field +:+ " parameter of CDI claim parameter resource")), dm)
    /\ errorKind ("missing " +:+ field +:+ " parameter of CDI claim parameter resource")
       = Some (MissingField field).
Proof using All.
  intros Hschema Hk Hmiss.
  destruct (firstMissing_defined (Spec p) k Hk Hmiss) as [field Hfirst].
  destruct (resolve_cdi_missing field Hschema Hfirst) as [Hresolve Hfield].
  exists field. split; [exact Hfirst |].
  split; [exact Hresolve | exact (errorKind_errTmpl field Hfield)].
Qed.

(** C6: through a parameter set whose schema version is neither of the two
    recognised identifiers the resolver fails with UnsupportedSchema carrying
    that version, whatever the spec map holds. *)
Theorem unsupported_schema :
  metav1.APIVersion (TypeMeta p) <> SimpleDeviceClaimParametersApiVersion ->
  metav1.APIVersion (TypeMeta p) <> CDIClaimParametersApiVersion ->
  ResolveK8sPodResourceClaimToDevice claim dm
  = (("", Some ("unsupported resource claim parameter apiVersion: "
                +:+ metav1.APIVersion (TypeMeta p))), dm)
  /\ errorKind ("unsupported resource claim parameter apiVersion: "
                +:+ metav1.APIVersion (TypeMeta p))
     = Some (UnsupportedSchema (metav1.APIVersion (TypeMeta p))).
Proof using All.
  intros Hsimple Hcdi.
  split; [exact (resolve_unsupported Hsimple Hcdi) | apply errorKind_unsupported].
Qed.

End Through.

(** ** Claims that do not reach a parameter set *)

(** C3: a claim whose direct claim name is set is rejected with
    UnsupportedClaimShape, whatever the registries hold and whether or not a
    template name is set as well. *)
Theorem direct_claim_rejected dm claim name :
  v1.ResourceClaimName (v1.Source claim) = Some name ->
  ResolveK8sPodResourceClaimToDevice claim dm
  = (("", Some "failed to resolve resource claim to device: resource claim should be nil"), dm)
  /\ errorKind "failed to resolve resource claim to device: resource claim should be nil"
     = Some UnsupportedClaimShape.
Proof.
  intros Hname. unfold ResolveK8sPodResourceClaimToDevice. rewrite Hname.
  split; reflexivity.
Qed.

(** C4: for a claim without a direct claim name, a missing template name gives
    MalformedClaim, a template name that is not registered gives
    TemplateNotFound, and a registered template whose parametersRef is not
    registered gives ParametersNotFound. *)
Theorem lookup_failures dm claim :
  v1.ResourceClaimName (v1.Source claim) = None ->
  (v1.ResourceClaimTemplateName (v1.Source claim) = None ->
   ResolveK8sPodResourceClaimToDevice claim dm
   = (("", Some "failed to resolve resource claim to device: claim source missing template name"),
      dm)
   /\ errorKind "failed to resolve resource claim to device: claim source missing template name"
      = Some MalformedClaim)
  /\ (forall T,
        v1.ResourceClaimTemplateName (v1.Source claim) = Some T ->
        resourceClaimTemplates dm !! T = None ->
        ResolveK8sPodResourceClaimToDevice claim dm
        = (("", Some "failed to resolve resource claim to device: Pod Resource Claim Source not found"),
           dm)
        /\ errorKind "failed to resolve resource claim to device: Pod Resource Claim Source not found"
           = Some TemplateNotFound)
  /\ (forall T rt,
        v1.ResourceClaimTemplateName (v1.Source claim) = Some T ->
        resourceClaimTemplates dm !! T = Some rt ->
        resourceClaimParameters dm
          !! v1alpha2.Name (v1alpha2.ParametersRef (v1alpha2.Spec rt)) = None ->
        ResolveK8sPodResourceClaimToDevice claim dm
        = (("", Some "failed to resolve resource claim parameters"), dm)
        /\ errorKind "failed to resolve resource claim parameters" = Some ParametersNotFound).
Proof.
  intros Hform. split; [|split].
  - intros Hnone. unfold ResolveK8sPodResourceClaimToDevice, bind. rewrite Hform.
    unfold resolveK8sPodResourceClaimToResourceClaimTemplate. rewrite Hnone.
    split; reflexivity.
  - intros T HT Hmiss. unfold ResolveK8sPodResourceClaimToDevice, bind. rewrite Hform.
    unfold resolveK8sPodResourceClaimToResourceClaimTemplate, bind, gets, ret.
    rewrite HT, Hmiss. split; reflexivity.
  - intros T rt HT Hrt Hmiss. rewrite (resolve_template dm claim T rt Hform HT Hrt).
    unfold resolveResourceClaimTemplateToDevice, bind, gets, ret.
    rewrite Hmiss. split; reflexivity.
Qed.

(** ** The registries *)

Lemma AddClaimParameters_fresh dm p :
  resourceClaimParameters dm !! metav1.Name (ObjectMeta p) = None ->
  AddClaimParameters p dm
  = (None, {| resourceClaimParameters :=
                <[metav1.Name (ObjectMeta p) := p]> (resourceClaimParameters dm);
              resourceClaimTemplates := resourceClaimTemplates dm |}).
Proof.
  intros Hfresh. unfold AddClaimParameters, bind, gets. rewrite Hfresh. reflexivity.
Qed.

Lemma AddClaimParameters_duplicate dm p q :
  resourceClaimParameters dm !! metav1.Name (ObjectMeta p) = Some q ->
  AddClaimParameters p dm = (Some "duplicate resource claim parameters defined", dm).
Proof.
  intros Hdup. unfold AddClaimParameters, bind, gets. rewrite Hdup. reflexivity.
Qed.

Lemma AddResourceClaimTemplate_fresh dm rt :
  resourceClaimTemplates dm !! metav1.Name (v1alpha2.ObjectMeta rt) = None ->
  AddResourceClaimTemplate rt dm
  = (None, {| resourceClaimParameters := resourceClaimParameters dm;
              resourceClaimTemplates :=
                <[metav1.Name (v1alpha2.ObjectMeta rt) := rt]> (resourceClaimTemplates dm) |}).
Proof.
  intros Hfresh. unfold AddResourceClaimTemplate, bind, gets. rewrite Hfresh. reflexivity.
Qed.

Lemma AddResourceClaimTemplate_duplicate dm rt qt :
  resourceClaimTemplates dm !! metav1.Name (v1alpha2.ObjectMeta rt) = Some qt ->
  AddResourceClaimTemplate rt dm = (Some "duplicate resource claim template defined", dm).
Proof.
  intros Hdup. unfold AddResourceClaimTemplate, bind, gets. rewrite Hdup. reflexivity.
Qed.

(** C7: in either registry, adding under a name that is not registered
    succeeds and the entry is then found under that name; adding under a
    registered name fails with DuplicateEntry and leaves the store, hence the
    entry already there, as it was. *)
Theorem registry_add_then_get :
  (forall dm p,
     resourceClaimParameters dm !! metav1.Name (ObjectMeta p) = None ->
     fst (AddClaimParameters p dm) = None
     /\ resourceClaimParameters (snd (AddClaimParameters p dm)) !! metav1.Name (ObjectMeta p)
        = Some p)
  /\ (forall dm p first,
        resourceClaimParameters dm !! metav1.Name (ObjectMeta p) = Some first ->
        AddClaimParameters p dm = (Some "duplicate resource claim parameters defined", dm)
        /\ errorKind "duplicate resource claim parameters defined" = Some DuplicateEntry
        /\ resourceClaimParameters (snd (AddClaimParameters p dm))
             !! metav1.Name (ObjectMeta p) = Some first)
  /\ (forall dm rt,
        resourceClaimTemplates dm !! metav1.Name (v1alpha2.ObjectMeta rt) = None ->
        fst (AddResourceClaimTemplate rt dm) = None
        /\ resourceClaimTemplates (snd (AddResourceClaimTemplate rt dm))
             !! metav1.Name (v1alpha2.ObjectMeta rt) = Some rt)
  /\ (forall dm rt first,
        resourceClaimTemplates dm !! metav1.Name (v1alpha2.ObjectMeta rt) = Some first ->
        AddResourceClaimTemplate rt dm = (Some "duplicate resource claim template defined", dm)
        /\ errorKind "duplicate resource claim template defined" = Some DuplicateEntry
        /\ resourceClaimTemplates (snd (AddResourceClaimTemplate rt dm))
             !! metav1.Name (v1alpha2.ObjectMeta rt) = Some first).
Proof.
  split; [|split; [|split]].
  - intros dm p Hfresh. rewrite (AddClaimParameters_fresh dm p Hfresh). simpl.
    split; [reflexivity | apply lookup_insert_eq].
  - intros dm p first Hdup. rewrite (AddClaimParameters_duplicate dm p first Hdup).
    repeat split. exact Hdup.
  - intros dm rt Hfresh. rewrite (AddResourceClaimTemplate_fresh dm rt Hfresh). simpl.
    split; [reflexivity | apply lookup_insert_eq].
  - intros dm rt first Hdup. rewrite (AddResourceClaimTemplate_duplicate dm rt first Hdup).
    repeat split. exact Hdup.
Qed.

(** ** Resolution as a function of the store and the claim *)

(** C8: resolving the same claim twice in a row, with nothing registered in
    between, gives the same device string and the same error both times. *)
Theorem resolution_deterministic dm claim :
  let first := ResolveK8sPodResourceClaimToDevice claim dm in
  let second := ResolveK8sPodResourceClaimToDevice claim (snd first) in
  fst second = fst first.
Proof.
  simpl. rewrite ResolveK8sPodResourceClaimToDevice_store. reflexivity.
Qed.

(** C9: when resolution fails, both registries are as they were before the
    call and the device string returned with the error is empty. *)
Theorem failure_is_clean dm claim device e dm' :
  ResolveK8sPodResourceClaimToDevice claim dm = ((device, Some e), dm') ->
  resourceClaimParameters dm' = resourceClaimParameters dm
  /\ resourceClaimTemplates dm' = resourceClaimTemplates dm
  /\ device = "".
Proof.
  intros Hfail.
  pose proof (ResolveK8sPodResourceClaimToDevice_store claim dm) as Hstore.
  rewrite Hfail in Hstore. simpl in Hstore. subst dm'.
  split; [reflexivity | split; [reflexivity |]].
  revert Hfail. unfold ResolveK8sPodResourceClaimToDevice, bind.
  destruct (v1.ResourceClaimName (v1.Source claim)).
  - unfold ret. intros Heq. injection Heq as Hdevice _. symmetry. exact Hdevice.
  - destruct (resolveK8sPodResourceClaimToResourceClaimTemplate claim dm)
      as [[resourceClaimTemplate [msg|]] dm1].
    + unfold ret. intros Heq. injection Heq as Hdevice _. symmetry. exact Hdevice.
    + apply resolveResourceClaimTemplateToDevice_failure.
Qed.

(** C10: registration looks at the name only.  Adding a parameter set, or a
    template, fails exactly when its name is already registered, whatever its
    schema version and spec map; a parameter set with an unrecognised schema
    or without its required keys is accepted and is turned down when a claim
    is resolved through it. *)
Theorem registration_checks_name_only :
  (forall dm p,
     fst (AddClaimParameters p dm) = None
     <-> resourceClaimParameters dm !! metav1.Name (ObjectMeta p) = None)
  /\ (forall dm rt,
        fst (AddResourceClaimTemplate rt dm) = None
        <-> resourceClaimTemplates dm !! metav1.Name (v1alpha2.ObjectMeta rt) = None)
  /\ (forall dm p claim T rt,
        resourceClaimParameters dm !! metav1.Name (ObjectMeta p) = None ->
        v1.ResourceClaimName (v1.Source claim) = None ->
        v1.ResourceClaimTemplateName (v1.Source claim) = Some T ->
        resourceClaimTemplates dm !! T = Some rt ->
        v1alpha2.Name (v1alpha2.ParametersRef (v1alpha2.Spec rt)) = metav1.Name (ObjectMeta p) ->
        let dm' := snd (AddClaimParameters p dm) in
        fst (AddClaimParameters p dm) = None
        /\ (metav1.APIVersion (TypeMeta p) <> SimpleDeviceClaimParametersApiVersion ->
            metav1.APIVersion (TypeMeta p) <> CDIClaimParametersApiVersion ->
            ResolveK8sPodResourceClaimToDevice claim dm'
            = (("", Some ("unsupported resource claim parameter apiVersion: "
                          +:+ metav1.APIVersion (TypeMeta p))), dm'))
        /\ (metav1.APIVersion (TypeMeta p) = SimpleDeviceClaimParametersApiVersion ->
            mapIndex (Spec p) "hostpath" = None ->
            ResolveK8sPodResourceClaimToDevice claim dm'
            = (("", Some "missing hostpath in simple device resource claim parameters"), dm'))
        /\ (forall field,
              metav1.APIVersion (TypeMeta p) = CDIClaimParametersApiVersion ->
              firstMissing (Spec p) = Some field ->
              ResolveK8sPodResourceClaimToDevice claim dm'
              = (("", Some ("missing " +:+ field
                            +:+ " parameter of CDI claim parameter resource")), dm'))).
Proof.
  split; [|split].
  - intros dm p. unfold AddClaimParameters, storeClaimParameters, bind, gets, modify, ret.
    destruct (resourceClaimParameters dm !! metav1.Name (ObjectMeta p)); simpl;
      split; congruence.
  - intros dm rt.
    unfold AddResourceClaimTemplate, storeResourceClaimTemplate, bind, gets, modify, ret.
    destruct (resourceClaimTemplates dm !! metav1.Name (v1alpha2.ObjectMeta rt)); simpl;
      split; congruence.
  - intros dm p claim T rt Hfresh Hform HT Hrt Href dm'. subst dm'.
    rewrite (AddClaimParameters_fresh dm p Hfresh). simpl.
    set (dm' := {| resourceClaimParameters := _ |}).
    assert (Hp : resourceClaimParameters dm'
                   !! v1alpha2.Name (v1alpha2.ParametersRef (v1alpha2.Spec rt)) = Some p).
    { rewrite Href. apply lookup_insert_eq. }
    split; [reflexivity | split; [|split]].
    + apply (resolve_unsupported dm' claim T rt p Hform HT Hrt Hp).
    + apply (resolve_hostpath_missing dm' claim T rt p Hform HT Hrt Hp).
    + intros field Hschema Hfirst.
      apply (resolve_cdi_missing dm' claim T rt p Hform HT Hrt Hp field Hschema Hfirst).
Qed.

(** ** The scenario, through the theorems *)

Lemma simple_device_resolution_witness :
  ResolveK8sPodResourceClaimToDevice (Scenario.byTemplate "t-foo") Scenario.dm
  = (("/dev/foo", None), Scenario.dm)
  /\ ResolveK8sPodResourceClaimToDevice (Scenario.byTemplate "t-bare") Scenario.dm
     = (("", Some "missing hostpath in simple device resource claim parameters"), Scenario.dm).
Proof.
  split.
  - refine (proj1 (simple_device_resolution Scenario.dm (Scenario.byTemplate "t-foo")
                     "t-foo" (Scenario.template "t-foo" "foo") Scenario.foo _ _ _ _ _)
                  "/dev/foo" _); vm_compute; reflexivity.
  - refine (proj1 (proj2 (simple_device_resolution Scenario.dm (Scenario.byTemplate "t-bare")
                     "t-bare" (Scenario.template "t-bare" "bare") Scenario.bare _ _ _ _ _)
                  _)); vm_compute; reflexivity.
Defined.

Lemma cdi_device_resolution_witness :
  ResolveK8sPodResourceClaimToDevice (Scenario.byTemplate "t-gpu") Scenario.dm
  = (("acme/gpu=0", None), Scenario.dm).
Proof.
  refine (cdi_device_resolution Scenario.dm (Scenario.byTemplate "t-gpu")
            "t-gpu" (Scenario.template "t-gpu" "gpu") Scenario.gpu _ _ _ _
            "gpu" "acme" "0" _ _ _ _); vm_compute; reflexivity.
Defined.

Lemma direct_claim_rejected_witness :
  ResolveK8sPodResourceClaimToDevice (Scenario.byName "c" (Some "t-foo")) Scenario.dm
  = (("", Some "failed to resolve resource claim to device: resource claim should be nil"),
     Scenario.dm)
  /\ ResolveK8sPodResourceClaimToDevice (Scenario.byName "c" None)
       NewDynamicDevicesResourceManager
     = (("", Some "failed to resolve resource claim to device: resource claim should be nil"),
        NewDynamicDevicesResourceManager).
Proof.
  split.
  - refine (proj1 (direct_claim_rejected Scenario.dm (Scenario.byName "c" (Some "t-foo"))
                     "c" _)); reflexivity.
  - refine (proj1 (direct_claim_rejected NewDynamicDevicesResourceManager
                     (Scenario.byName "c" None) "c" _)); reflexivity.
Defined.

Lemma lookup_failures_witness :
  ResolveK8sPodResourceClaimToDevice
    {| v1.Name := "claim";
       v1.Source := {| v1.ResourceClaimName := None;
                       v1.ResourceClaimTemplateName := None |} |} Scenario.dm
  = (("", Some "failed to resolve resource claim to device: claim source missing template name"),
     Scenario.dm)
  /\ ResolveK8sPodResourceClaimToDevice (Scenario.byTemplate "t-none") Scenario.dm
     = (("", Some "failed to resolve resource claim to device: Pod Resource Claim Source not found"),
        Scenario.dm)
  /\ ResolveK8sPodResourceClaimToDevice (Scenario.byTemplate "t-dangling") Scenario.dm
     = (("", Some "failed to resolve resource claim parameters"), Scenario.dm).
Proof.
  split; [|split].
  - refine (proj1 (proj1 (lookup_failures Scenario.dm _ _) _)); reflexivity.
  - refine (proj1 (proj1 (proj2 (lookup_failures Scenario.dm (Scenario.byTemplate "t-none") _))
                     "t-none" _ _)); vm_compute; reflexivity.
  - refine (proj1 (proj2 (proj2 (lookup_failures Scenario.dm (Scenario.byTemplate "t-dangling") _))
                     "t-dangling" (Scenario.template "t-dangling" "nowhere") _ _ _));
      vm_compute; reflexivity.
Defined.

Lemma cdi_missing_field_witness :
  ResolveK8sPodResourceClaimToDevice (Scenario.byTemplate "t-novendor") Scenario.dm
  = (("", Some "missing vendor parameter of CDI claim parameter resource"), Scenario.dm)
  /\ ResolveK8sPodResourceClaimToDevice (Scenario.byTemplate "t-blank") Scenario.dm
     = (("", Some "missing device parameter of CDI claim parameter resource"), Scenario.dm).
Proof.
  split.
  - assert (Htemplate : resourceClaimTemplates Scenario.dm !! "t-novendor"
                        = Some (Scenario.template "t-novendor" "novendor"))
      by (vm_compute; reflexivity).
    assert (Hparameters : resourceClaimParameters Scenario.dm !! "novendor"
                          = Some Scenario.novendor)
      by (vm_compute; reflexivity).
    assert (Hmiss : mapIndex (Spec Scenario.novendor) "vendor" = None)
      by (vm_compute; reflexivity).
    destruct (cdi_missing_field Scenario.dm (Scenario.byTemplate "t-novendor")
                "t-novendor" (Scenario.template "t-novendor" "novendor")
                Scenario.novendor eq_refl eq_refl Htemplate Hparameters
                "vendor" eq_refl (or_intror (or_introl eq_refl)) Hmiss)
      as (field & Hfirst & Hresolve & _).
    vm_compute in Hfirst. injection Hfirst as <-. exact Hresolve.
  - assert (Htemplate : resourceClaimTemplates Scenario.dm !! "t-blank"
                        = Some (Scenario.template "t-blank" "blank"))
      by (vm_compute; reflexivity).
    assert (Hparameters : resourceClaimParameters Scenario.dm !! "blank"
                          = Some Scenario.blank)
      by (vm_compute; reflexivity).
    assert (Hmiss : mapIndex (Spec Scenario.blank) "name" = None)
      by (vm_compute; reflexivity).
    destruct (cdi_missing_field Scenario.dm (Scenario.byTemplate "t-blank")
                "t-blank" (Scenario.template "t-blank" "blank")
                Scenario.blank eq_refl eq_refl Htemplate Hparameters
                "name" eq_refl (or_intror (or_intror (or_introl eq_refl))) Hmiss)
      as (field & Hfirst & Hresolve & _).
    vm_compute in Hfirst. injection Hfirst as <-. exact Hresolve.
Defined.

Lemma unsupported_schema_witness :
  ResolveK8sPodResourceClaimToDevice (Scenario.byTemplate "t-odd") Scenario.dm
  = (("", Some "unsupported resource claim parameter apiVersion: other.resource.podman.io/v1"),
     Scenario.dm)
  /\ mapIndex (Spec Scenario.odd) <$> ["hostpath"; "vendor"; "device"; "name"]
     = [Some "/dev/foo"; Some "acme"; Some "gpu"; Some "0"].
Proof.
  split.
  - refine (proj1 (unsupported_schema Scenario.dm (Scenario.byTemplate "t-odd")
                     "t-odd" (Scenario.template "t-odd" "odd") Scenario.odd _ _ _ _ _ _));
      try (vm_compute; reflexivity); discriminate.
  - vm_compute. reflexivity.
Defined.

Lemma registry_add_then_get_witness :
  (fst (AddClaimParameters Scenario.foo NewDynamicDevicesResourceManager) = None
   /\ resourceClaimParameters
        (snd (AddClaimParameters Scenario.foo NewDynamicDevicesResourceManager)) !! "foo"
      = Some Scenario.foo)
  /\ (AddClaimParameters (Scenario.parameters "foo" CDIClaimParametersApiVersion []) Scenario.dm
      = (Some "duplicate resource claim parameters defined", Scenario.dm)
      /\ resourceClaimParameters
           (snd (AddClaimParameters (Scenario.parameters "foo" CDIClaimParametersApiVersion [])
                   Scenario.dm)) !! "foo"
         = Some Scenario.foo)
  /\ (fst (AddResourceClaimTemplate (Scenario.template "t-foo" "foo")
             NewDynamicDevicesResourceManager) = None
      /\ resourceClaimTemplates
           (snd (AddResourceClaimTemplate (Scenario.template "t-foo" "foo")
                   NewDynamicDevicesResourceManager)) !! "t-foo"
         = Some (Scenario.template "t-foo" "foo"))
  /\ (AddResourceClaimTemplate (Scenario.template "t-foo" "gpu") Scenario.dm
      = (Some "duplicate resource claim template defined", Scenario.dm)
      /\ resourceClaimTemplates
           (snd (AddResourceClaimTemplate (Scenario.template "t-foo" "gpu") Scenario.dm))
           !! "t-foo"
         = Some (Scenario.template "t-foo" "foo")).
Proof.
  destruct registry_add_then_get as (Hadd & Hdup & Haddt & Hdupt).
  split; [|split; [|split]].
  - refine (Hadd NewDynamicDevicesResourceManager Scenario.foo _). reflexivity.
  - assert (Hfoo : resourceClaimParameters Scenario.dm !! "foo" = Some Scenario.foo)
      by (vm_compute; reflexivity).
    exact (let H := Hdup Scenario.dm
                      (Scenario.parameters "foo" CDIClaimParametersApiVersion [])
                      Scenario.foo Hfoo in conj (proj1 H) (proj2 (proj2 H))).
  - refine (Haddt NewDynamicDevicesResourceManager (Scenario.template "t-foo" "foo") _).
    reflexivity.
  - assert (Hfoo : resourceClaimTemplates Scenario.dm !! "t-foo"
                   = Some (Scenario.template "t-foo" "foo"))
      by (vm_compute; reflexivity).
    exact (let H := Hdupt Scenario.dm (Scenario.template "t-foo" "gpu")
                      (Scenario.template "t-foo" "foo") Hfoo
           in conj (proj1 H) (proj2 (proj2 H))).
Defined.

Lemma failure_is_clean_witness :
  resourceClaimParameters Scenario.dm = resourceClaimParameters Scenario.dm
  /\ resourceClaimTemplates Scenario.dm = resourceClaimTemplates Scenario.dm
  /\ "" = "".
Proof.
  refine (failure_is_clean Scenario.dm (Scenario.byTemplate "t-novendor") ""
            "missing vendor parameter of CDI claim parameter resource" Scenario.dm _).
  vm_compute. reflexivity.
Defined.

Lemma registration_checks_name_only_witness :
  (let dm := snd (AddResourceClaimTemplate (Scenario.template "t-odd" "odd")
                    NewDynamicDevicesResourceManager) in
   fst (AddClaimParameters Scenario.odd dm) = None
   /\ ResolveK8sPodResourceClaimToDevice (Scenario.byTemplate "t-odd")
        (snd (AddClaimParameters Scenario.odd dm))
      = (("", Some "unsupported resource claim parameter apiVersion: other.resource.podman.io/v1"),
         snd (AddClaimParameters Scenario.odd dm)))
  /\ (let dm := snd (AddResourceClaimTemplate (Scenario.template "t-nospec" "nospec")
                       Scenario.dm) in
      fst (AddClaimParameters Scenario.nospec dm) = None
      /\ ResolveK8sPodResourceClaimToDevice (Scenario.byTemplate "t-nospec")
           (snd (AddClaimParameters Scenario.nospec dm))
         = (("", Some "missing hostpath in simple device resource claim parameters"),
            snd (AddClaimParameters Scenario.nospec dm)))
  /\ fst (AddClaimParameters Scenario.nospec Scenario.dm) = None.
Proof.
  split; [|split].
  - intros dm.
    assert (Hfresh : resourceClaimParameters dm !! "odd" = None) by (vm_compute; reflexivity).
    assert (Htemplate : resourceClaimTemplates dm !! "t-odd"
                        = Some (Scenario.template "t-odd" "odd")) by (vm_compute; reflexivity).
    pose proof (proj2 (proj2 registration_checks_name_only) dm Scenario.odd
                  (Scenario.byTemplate "t-odd") "t-odd" (Scenario.template "t-odd" "odd")
                  Hfresh eq_refl eq_refl Htemplate eq_refl) as H.
    split; [exact (proj1 H) | apply (proj1 (proj2 H)); discriminate].
  - intros dm.
    assert (Hfresh : resourceClaimParameters dm !! "nospec" = None)
      by (vm_compute; reflexivity).
    assert (Htemplate : resourceClaimTemplates dm !! "t-nospec"
                        = Some (Scenario.template "t-nospec" "nospec"))
      by (vm_compute; reflexivity).
    pose proof (proj2 (proj2 registration_checks_name_only) dm Scenario.nospec
                  (Scenario.byTemplate "t-nospec") "t-nospec"
                  (Scenario.template "t-nospec" "nospec")
                  Hfresh eq_refl eq_refl Htemplate eq_refl) as H.
    split; [exact (proj1 H) | apply (proj1 (proj2 (proj2 H))); reflexivity].
  - apply (proj1 registration_checks_name_only Scenario.dm Scenario.nospec).
    vm_compute. reflexivity.
Defined.

(** ** Sequences of calls: what every call keeps *)

Lemma performAll_cons c cs dm :
  snd (performAll (c :: cs) dm) = snd (performAll cs (snd (perform c dm))).
Proof.
  simpl. unfold bind. destruct (perform c dm) as [[] dm1]. reflexivity.
Qed.

Lemma performAll_app cs1 cs2 dm :
  snd (performAll (cs1 ++ cs2) dm) = snd (performAll cs2 (snd (performAll cs1 dm))).
Proof.
  revert dm. induction cs1 as [|c cs1 IH]; intros dm.
  - reflexivity.
  - rewrite <- app_comm_cons, !performAll_cons. apply IH.
Qed.

Lemma perform_AddClaimParameters p dm :
  snd (perform (CallAddClaimParameters p) dm) = snd (AddClaimParameters p dm).
Proof.
  simpl. unfold bind. destruct (AddClaimParameters p dm). reflexivity.
Qed.

Lemma perform_AddResourceClaimTemplate rt dm :
  snd (perform (CallAddResourceClaimTemplate rt) dm) = snd (AddResourceClaimTemplate rt dm).
Proof.
  simpl. unfold bind. destruct (AddResourceClaimTemplate rt dm). reflexivity.
Qed.

Lemma perform_Resolve claim dm :
  snd (perform (CallResolve claim) dm) = dm.
Proof.
  simpl. unfold bind.
  pose proof (ResolveK8sPodResourceClaimToDevice_store claim dm) as Hstore.
  destruct (ResolveK8sPodResourceClaimToDevice claim dm). exact Hstore.
Qed.

(** The store after [AddClaimParameters], in both cases at once. *)
Lemma AddClaimParameters_store p dm :
  snd (AddClaimParameters p dm)
  = match resourceClaimParameters dm !! metav1.Name (ObjectMeta p) with
    | Some _ => dm
    | None => {| resourceClaimParameters :=
                   <[metav1.Name (ObjectMeta p) := p]> (resourceClaimParameters dm);
                 resourceClaimTemplates := resourceClaimTemplates dm |}
    end.
Proof.
  unfold AddClaimParameters, bind, gets.
  destruct (resourceClaimParameters dm !! metav1.Name (ObjectMeta p)); reflexivity.
Qed.

Lemma AddResourceClaimTemplate_store rt dm :
  snd (AddResourceClaimTemplate rt dm)
  = match resourceClaimTemplates dm !! metav1.Name (v1alpha2.ObjectMeta rt) with
    | Some _ => dm
    | None => {| resourceClaimParameters := resourceClaimParameters dm;
                 resourceClaimTemplates :=
                   <[metav1.Name (v1alpha2.ObjectMeta rt) := rt]> (resourceClaimTemplates dm) |}
    end.
Proof.
  unfold AddResourceClaimTemplate, bind, gets.
  destruct (resourceClaimTemplates dm !! metav1.Name (v1alpha2.ObjectMeta rt)); reflexivity.
Qed.

Lemma perform_grows c dm :
  resourceClaimParameters dm ⊆ resourceClaimParameters (snd (perform c dm))
  /\ resourceClaimTemplates dm ⊆ resourceClaimTemplates (snd (perform c dm)).
Proof.
  destruct c as [p|rt|claim].
  - rewrite perform_AddClaimParameters, AddClaimParameters_store.
    destruct (resourceClaimParameters dm !! metav1.Name (ObjectMeta p)) eqn:Hp; simpl.
    + split; reflexivity.
    + split; [apply insert_subseteq; exact Hp | reflexivity].
  - rewrite perform_AddResourceClaimTemplate, AddResourceClaimTemplate_store.
    destruct (resourceClaimTemplates dm !! metav1.Name (v1alpha2.ObjectMeta rt)) eqn:Hrt; simpl.
    + split; reflexivity.
    + split; [reflexivity | apply insert_subseteq; exact Hrt].
  - rewrite perform_Resolve. split; reflexivity.
Qed.

Lemma performAll_grows cs dm :
  resourceClaimParameters dm ⊆ resourceClaimParameters (snd (performAll cs dm))
  /\ resourceClaimTemplates dm ⊆ resourceClaimTemplates (snd (performAll cs dm)).
Proof.
  revert dm. induction cs as [|c cs IH]; intros dm.
  - split; reflexivity.
  - rewrite performAll_cons.
    destruct (perform_grows c dm) as [Hp Ht].
    destruct (IH (snd (perform c dm))) as [Hp' Ht'].
    split; [exact (transitivity Hp Hp') | exact (transitivity Ht Ht')].
Qed.

Lemma perform_keyedByName c dm :
  keyedByName dm -> keyedByName (snd (perform c dm)).
Proof.
  intros [Hp Ht]. destruct c as [p|rt|claim].
  - rewrite perform_AddClaimParameters, AddClaimParameters_store.
    destruct (resourceClaimParameters dm !! metav1.Name (ObjectMeta p)) eqn:Hfound.
    + split; assumption.
    + split; [|exact Ht]. simpl. intros k q Hq.
      destruct (decide (metav1.Name (ObjectMeta p) = k)) as [<-|Hne].
      * rewrite lookup_insert_eq in Hq. injection Hq as <-. reflexivity.
      * rewrite lookup_insert_ne in Hq by exact Hne. apply Hp, Hq.
  - rewrite perform_AddResourceClaimTemplate, AddResourceClaimTemplate_store.
    destruct (resourceClaimTemplates dm !! metav1.Name (v1alpha2.ObjectMeta rt)) eqn:Hfound.
    + split; assumption.
    + split; [exact Hp|]. simpl. intros k q Hq.
      destruct (decide (metav1.Name (v1alpha2.ObjectMeta rt) = k)) as [<-|Hne].
      * rewrite lookup_insert_eq in Hq. injection Hq as <-. reflexivity.
      * rewrite lookup_insert_ne in Hq by exact Hne. apply Ht, Hq.
  - rewrite perform_Resolve. split; assumption.
Qed.

Lemma performAll_keyedByName cs dm :
  keyedByName dm -> keyedByName (snd (performAll cs dm)).
Proof.
  revert dm. induction cs as [|c cs IH]; intros dm Hdm.
  - exact Hdm.
  - rewrite performAll_cons. apply IH, perform_keyedByName, Hdm.
Qed.

(** X1: whatever calls are made on a manager made by
    [NewDynamicDevicesResourceManager], every parameter set and every template
    in it is stored under its own name. *)
Theorem registries_keyed_by_name cs :
  keyedByName (snd (performAll cs NewDynamicDevicesResourceManager)).
Proof.
  apply performAll_keyedByName. split; intros k x Hx; simpl in Hx;
    rewrite lookup_empty in Hx; discriminate.
Qed.

(** X2: no sequence of calls removes or replaces an entry: what either
    registry holds before the calls it still holds after them. *)
Theorem registries_only_grow cs dm :
  resourceClaimParameters dm ⊆ resourceClaimParameters (snd (performAll cs dm))
  /\ resourceClaimTemplates dm ⊆ resourceClaimTemplates (snd (performAll cs dm)).
Proof.
  apply performAll_grows.
Qed.

(** ** Registering a list *)

(** X3: the first registration of a name wins.  After a list of parameter
    sets is added one after the other, a name that was registered before
    still has its entry, and any other name has the first parameter set of the
    list that carries it, or none if the list has none. *)
Theorem first_parameters_win ps dm k :
  resourceClaimParameters (snd (performAll (map CallAddClaimParameters ps) dm)) !! k
  = match resourceClaimParameters dm !! k with
    | Some first => Some first
    | None => List.find (fun p => String.eqb (metav1.Name (ObjectMeta p)) k) ps
    end.
Proof.
  revert dm. induction ps as [|p ps IH]; intros dm.
  - simpl. destruct (resourceClaimParameters dm !! k); reflexivity.
  - rewrite map_cons, performAll_cons, IH, perform_AddClaimParameters, AddClaimParameters_store.
    simpl List.find.
    destruct (String.eqb (metav1.Name (ObjectMeta p)) k) eqn:Hk.
    + apply String.eqb_eq in Hk. subst k.
      destruct (resourceClaimParameters dm !! metav1.Name (ObjectMeta p)) eqn:Hfound.
      * rewrite Hfound. reflexivity.
      * simpl. rewrite lookup_insert_eq. reflexivity.
    + apply String.eqb_neq in Hk.
      destruct (resourceClaimParameters dm !! metav1.Name (ObjectMeta p)) eqn:Hfound.
      * reflexivity.
      * simpl. rewrite lookup_insert_ne by exact Hk. reflexivity.
Qed.

(** X4: the first registration of a template name wins, in the same way. *)
Theorem first_template_wins rts dm k :
  resourceClaimTemplates (snd (performAll (map CallAddResourceClaimTemplate rts) dm)) !! k
  = match resourceClaimTemplates dm !! k with
    | Some first => Some first
    | None => List.find (fun rt => String.eqb (metav1.Name (v1alpha2.ObjectMeta rt)) k) rts
    end.
Proof.
  revert dm. induction rts as [|rt rts IH]; intros dm.
  - simpl. destruct (resourceClaimTemplates dm !! k); reflexivity.
  - rewrite map_cons, performAll_cons, IH, perform_AddResourceClaimTemplate,
      AddResourceClaimTemplate_store.
    simpl List.find.
    destruct (String.eqb (metav1.Name (v1alpha2.ObjectMeta rt)) k) eqn:Hk.
    + apply String.eqb_eq in Hk. subst k.
      destruct (resourceClaimTemplates dm !! metav1.Name (v1alpha2.ObjectMeta rt)) eqn:Hfound.
      * rewrite Hfound. reflexivity.
      * simpl. rewrite lookup_insert_eq. reflexivity.
    + apply String.eqb_neq in Hk.
      destruct (resourceClaimTemplates dm !! metav1.Name (v1alpha2.ObjectMeta rt)) eqn:Hfound.
      * reflexivity.
      * simpl. rewrite lookup_insert_ne by exact Hk. reflexivity.
Qed.

(** X5: registrations under different names commute, and a registration of
    a parameter set commutes with a registration of a template whatever their
    names: the manager ends up the same in either order. *)
Theorem registrations_commute dm :
  (forall p q,
     metav1.Name (ObjectMeta p) <> metav1.Name (ObjectMeta q) ->
     snd (AddClaimParameters q (snd (AddClaimParameters p dm)))
     = snd (AddClaimParameters p (snd (AddClaimParameters q dm))))
  /\ (forall rt qt,
        metav1.Name (v1alpha2.ObjectMeta rt) <> metav1.Name (v1alpha2.ObjectMeta qt) ->
        snd (AddResourceClaimTemplate qt (snd (AddResourceClaimTemplate rt dm)))
        = snd (AddResourceClaimTemplate rt (snd (AddResourceClaimTemplate qt dm))))
  /\ (forall p rt,
        snd (AddResourceClaimTemplate rt (snd (AddClaimParameters p dm)))
        = snd (AddClaimParameters p (snd (AddResourceClaimTemplate rt dm)))).
Proof.
  split; [|split].
  - intros p q Hne. rewrite !AddClaimParameters_store.
    destruct (resourceClaimParameters dm !! metav1.Name (ObjectMeta p)) eqn:Hp;
      destruct (resourceClaimParameters dm !! metav1.Name (ObjectMeta q)) eqn:Hq; simpl;
      rewrite ?Hp, ?Hq, ?lookup_insert_ne, ?Hp, ?Hq by congruence; try reflexivity.
    f_equal. apply insert_insert_ne. congruence.
  - intros rt qt Hne. rewrite !AddResourceClaimTemplate_store.
    destruct (resourceClaimTemplates dm !! metav1.Name (v1alpha2.ObjectMeta rt)) eqn:Hp;
      destruct (resourceClaimTemplates dm !! metav1.Name (v1alpha2.ObjectMeta qt)) eqn:Hq; simpl;
      rewrite ?Hp, ?Hq, ?lookup_insert_ne, ?Hp, ?Hq by congruence; try reflexivity.
    f_equal. apply insert_insert_ne. congruence.
  - intros p rt. rewrite !AddClaimParameters_store, !AddResourceClaimTemplate_store.
    destruct (resourceClaimParameters dm !! metav1.Name (ObjectMeta p)) eqn:Hp;
      destruct (resourceClaimTemplates dm !! metav1.Name (v1alpha2.ObjectMeta rt)) eqn:Hq; simpl;
      rewrite ?Hp, ?Hq; reflexivity.
Qed.

(** ** What a resolution depends on *)

(** The outcome once the template and its parameter set are found, as the
    resolver computes it from the schema version and four lookups. *)
Lemma resolve_found dm claim T rt p :
  v1.ResourceClaimName (v1.Source claim) = None ->
  v1.ResourceClaimTemplateName (v1.Source claim) = Some T ->
  resourceClaimTemplates dm !! T = Some rt ->
  resourceClaimParameters dm
    !! v1alpha2.Name (v1alpha2.ParametersRef (v1alpha2.Spec rt)) = Some p ->
  fst (ResolveK8sPodResourceClaimToDevice claim dm)
  = fst (resolveResourceClaimTemplateToDevice rt
           {| resourceClaimParameters :=
                {[ v1alpha2.Name (v1alpha2.ParametersRef (v1alpha2.Spec rt)) := p ]};
              resourceClaimTemplates := ∅ |}).
Proof.
  intros Hform HT Hrt Hp.
  rewrite (resolve_template dm claim T rt Hform HT Hrt).
  unfold resolveResourceClaimTemplateToDevice, bind, gets, ret. simpl.
  rewrite Hp, lookup_singleton_eq.
  repeat match goal with
         | |- context [if ?b then _ else _] => destruct b
         | |- context [match mapIndex ?m ?k with _ => _ end] => destruct (mapIndex m k)
         end; reflexivity.
Qed.

(** X6: once the template a claim names and the parameter set of that
    template are registered, the outcome of resolving the claim is settled:
    no later call on the manager changes the device or the error returned. *)
Theorem resolution_settled dm claim T rt p cs :
  v1.ResourceClaimName (v1.Source claim) = None ->
  v1.ResourceClaimTemplateName (v1.Source claim) = Some T ->
  resourceClaimTemplates dm !! T = Some rt ->
  resourceClaimParameters dm
    !! v1alpha2.Name (v1alpha2.ParametersRef (v1alpha2.Spec rt)) = Some p ->
  fst (ResolveK8sPodResourceClaimToDevice claim (snd (performAll cs dm)))
  = fst (ResolveK8sPodResourceClaimToDevice claim dm).
Proof.
  intros Hform HT Hrt Hp.
  destruct (performAll_grows cs dm) as [Hps Hts].
  rewrite (resolve_found dm claim T rt p Hform HT Hrt Hp).
  apply (resolve_found _ claim T rt p Hform HT).
  - exact (lookup_weaken _ _ _ _ Hrt Hts).
  - exact (lookup_weaken _ _ _ _ Hp Hps).
Qed.

(** X7: the resolver reads nothing of a parameter set but its schema
    version and the keys "hostpath", "device", "vendor" and "name", and
    nothing of a template but its reference: two managers whose entries for a
    claim agree on these resolve it alike, whatever the kinds, names, class
    names and further keys of the entries. *)
Theorem resolution_reads_schema_and_keys dm1 dm2 claim T rt1 rt2 p1 p2 :
  v1.ResourceClaimName (v1.Source claim) = None ->
  v1.ResourceClaimTemplateName (v1.Source claim) = Some T ->
  resourceClaimTemplates dm1 !! T = Some rt1 ->
  resourceClaimTemplates dm2 !! T = Some rt2 ->
  resourceClaimParameters dm1
    !! v1alpha2.Name (v1alpha2.ParametersRef (v1alpha2.Spec rt1)) = Some p1 ->
  resourceClaimParameters dm2
    !! v1alpha2.Name (v1alpha2.ParametersRef (v1alpha2.Spec rt2)) = Some p2 ->
  metav1.APIVersion (TypeMeta p1) = metav1.APIVersion (TypeMeta p2) ->
  Forall (fun k => mapIndex (Spec p1) k = mapIndex (Spec p2) k) readKeys ->
  fst (ResolveK8sPodResourceClaimToDevice claim dm1)
  = fst (ResolveK8sPodResourceClaimToDevice claim dm2).
Proof.
  intros Hform HT Hrt1 Hrt2 Hp1 Hp2 Hschema Hkeys.
  rewrite (resolve_template dm1 claim T rt1 Hform HT Hrt1).
  rewrite (resolve_template dm2 claim T rt2 Hform HT Hrt2).
  unfold resolveResourceClaimTemplateToDevice, bind, gets, ret.
  rewrite Hp1, Hp2, Hschema.
  unfold readKeys in Hkeys.
  inversion_clear Hkeys as [|? ? Hhostpath Hkeys1].
  inversion_clear Hkeys1 as [|? ? Hdevice Hkeys2].
  inversion_clear Hkeys2 as [|? ? Hvendor Hkeys3].
  inversion_clear Hkeys3 as [|? ? Hname _].
  rewrite Hhostpath, Hdevice, Hvendor, Hname.
  repeat match goal with
         | |- context [if ?b then _ else _] => destruct b
         | |- context [match mapIndex ?m ?k with _ => _ end] => destruct (mapIndex m k)
         end; reflexivity.
Qed.

(** X8: a device returned without an error comes from the registries: the
    claim has no direct claim name, names a registered template whose
    parameter set is registered, and the device is either the "hostpath" value
    of a simple-device set or vendor, "/", device, "=", name of a CDI set. *)
Theorem success_comes_from_registries dm claim device dm' :
  ResolveK8sPodResourceClaimToDevice claim dm = ((device, None), dm') ->
  v1.ResourceClaimName (v1.Source claim) = None
  /\ exists T rt p,
       v1.ResourceClaimTemplateName (v1.Source claim) = Some T
       /\ resourceClaimTemplates dm !! T = Some rt
       /\ resourceClaimParameters dm
            !! v1alpha2.Name (v1alpha2.ParametersRef (v1alpha2.Spec rt)) = Some p
       /\ ((metav1.APIVersion (TypeMeta p) = SimpleDeviceClaimParametersApiVersion
            /\ mapIndex (Spec p) "hostpath" = Some device)
           \/ (metav1.APIVersion (TypeMeta p) = CDIClaimParametersApiVersion
               /\ exists d v n,
                    mapIndex (Spec p) "device" = Some d
                    /\ mapIndex (Spec p) "vendor" = Some v
                    /\ mapIndex (Spec p) "name" = Some n
                    /\ device = v +:+ "/" +:+ d +:+ "=" +:+ n)).
Proof.
  unfold ResolveK8sPodResourceClaimToDevice, bind.
  destruct (v1.ResourceClaimName (v1.Source claim)) eqn:Hform; [discriminate|].
  unfold resolveK8sPodResourceClaimToResourceClaimTemplate, bind, gets, ret.
  destruct (v1.ResourceClaimTemplateName (v1.Source claim)) as [T|] eqn:HT; [|discriminate].
  destruct (resourceClaimTemplates dm !! T) as [rt|] eqn:Hrt; [|discriminate].
  unfold resolveResourceClaimTemplateToDevice, bind, gets, ret.
  destruct (resourceClaimParameters dm !! _) as [p|] eqn:Hp; [|discriminate].
  intros Hresult. split; [reflexivity|]. exists T, rt, p.
  split; [reflexivity|]. split; [exact Hrt|]. split; [exact Hp|].
  destruct (String.eqb _ SimpleDeviceClaimParametersApiVersion) eqn:Hsimple.
  - left. apply String.eqb_eq in Hsimple. split; [exact Hsimple|].
    destruct (mapIndex (Spec p) "hostpath") as [v|]; [|discriminate].
    injection Hresult as <- _. reflexivity.
  - destruct (String.eqb _ CDIClaimParametersApiVersion) eqn:Hcdi; [|discriminate].
    right. apply String.eqb_eq in Hcdi. split; [exact Hcdi|].
    destruct (mapIndex (Spec p) "device") as [d|]; [|discriminate].
    destruct (mapIndex (Spec p) "vendor") as [v|]; [|discriminate].
    destruct (mapIndex (Spec p) "name") as [n|]; [|discriminate].
    exists d, v, n. injection Hresult as <- _. repeat split; reflexivity.
Qed.

Lemma register_parameters_templates ps dm :
  resourceClaimTemplates (snd (performAll (map CallAddClaimParameters ps) dm))
  = resourceClaimTemplates dm.
Proof.
  revert dm. induction ps as [|p ps IH]; intros dm.
  - reflexivity.
  - rewrite map_cons, performAll_cons, IH, perform_AddClaimParameters, AddClaimParameters_store.
    destruct (resourceClaimParameters dm !! metav1.Name (ObjectMeta p)); reflexivity.
Qed.

Lemma register_templates_parameters rts dm :
  resourceClaimParameters (snd (performAll (map CallAddResourceClaimTemplate rts) dm))
  = resourceClaimParameters dm.
Proof.
  revert dm. induction rts as [|rt rts IH]; intros dm.
  - reflexivity.
  - rewrite map_cons, performAll_cons, IH, perform_AddResourceClaimTemplate,
      AddResourceClaimTemplate_store.
    destruct (resourceClaimTemplates dm !! metav1.Name (v1alpha2.ObjectMeta rt)); reflexivity.
Qed.

Lemma resolve_without_templates dm claim :
  resourceClaimTemplates dm = ∅ ->
  exists e, fst (ResolveK8sPodResourceClaimToDevice claim dm) = ("", Some e).
Proof.
  intros Hempty. unfold ResolveK8sPodResourceClaimToDevice, bind.
  destruct (v1.ResourceClaimName (v1.Source claim)); [eexists; reflexivity|].
  unfold resolveK8sPodResourceClaimToResourceClaimTemplate, bind, gets, ret.
  destruct (v1.ResourceClaimTemplateName (v1.Source claim)) as [T|]; [|eexists; reflexivity].
  rewrite Hempty, lookup_empty. eexists; reflexivity.
Qed.

Lemma resolve_without_parameters dm claim :
  resourceClaimParameters dm = ∅ ->
  exists e, fst (ResolveK8sPodResourceClaimToDevice claim dm) = ("", Some e).
Proof.
  intros Hempty. unfold ResolveK8sPodResourceClaimToDevice, bind.
  destruct (v1.ResourceClaimName (v1.Source claim)); [eexists; reflexivity|].
  unfold resolveK8sPodResourceClaimToResourceClaimTemplate, bind, gets, ret.
  destruct (v1.ResourceClaimTemplateName (v1.Source claim)) as [T|]; [|eexists; reflexivity].
  destruct (resourceClaimTemplates dm !! T) as [rt|]; [|eexists; reflexivity].
  unfold resolveResourceClaimTemplateToDevice, bind, gets, ret.
  rewrite Hempty, lookup_empty. eexists; reflexivity.
Qed.

(** X9: a resolution needs a template and a parameter set.  On a manager
    made by [NewDynamicDevicesResourceManager] on which only parameter sets, or
    only templates, have been registered, every claim fails to resolve. *)
Theorem one_registry_is_not_enough claim :
  (forall ps, exists e,
     fst (ResolveK8sPodResourceClaimToDevice claim
            (snd (performAll (map CallAddClaimParameters ps)
                    NewDynamicDevicesResourceManager)))
     = ("", Some e))
  /\ (forall rts, exists e,
        fst (ResolveK8sPodResourceClaimToDevice claim
               (snd (performAll (map CallAddResourceClaimTemplate rts)
                       NewDynamicDevicesResourceManager)))
        = ("", Some e)).
Proof.
  split.
  - intros ps. apply resolve_without_templates, register_parameters_templates.
  - intros rts. apply resolve_without_parameters, register_templates_parameters.
Qed.

(** ** The text of an error *)

(** X10: only a failure found before the parameter lookup carries the
    resolver's own prefix.  When the claim names a registered template the
    error returned does not begin with "failed to resolve resource claim to
    device: "; when the claim has a direct claim name, names no template or
    names one that is not registered, it does. *)
Theorem error_prefix dm claim device e dm' :
  ResolveK8sPodResourceClaimToDevice claim dm = ((device, Some e), dm') ->
  (forall T rt,
     v1.ResourceClaimName (v1.Source claim) = None ->
     v1.ResourceClaimTemplateName (v1.Source claim) = Some T ->
     resourceClaimTemplates dm !! T = Some rt ->
     stripPrefix "failed to resolve resource claim to device: " e = None)
  /\ (v1.ResourceClaimName (v1.Source claim) <> None
      \/ v1.ResourceClaimTemplateName (v1.Source claim) = None
      \/ (exists T, v1.ResourceClaimTemplateName (v1.Source claim) = Some T
                    /\ resourceClaimTemplates dm !! T = None) ->
      exists detail, stripPrefix "failed to resolve resource claim to device: " e = Some detail).
Proof.
  intros Hresult. split.
  - intros T rt Hform HT Hrt.
    rewrite (resolve_template dm claim T rt Hform HT Hrt) in Hresult.
    revert Hresult. unfold resolveResourceClaimTemplateToDevice, bind, gets, ret.
    destruct (resourceClaimParameters dm !! _) as [p|].
    + repeat match goal with
             | |- context [if ?b then _ else _] => destruct b
             | |- context [match mapIndex ?m ?k with _ => _ end] => destruct (mapIndex m k)
             end; intros Heq; try discriminate; injection Heq as _ <- _; reflexivity.
    + intros Heq. injection Heq as _ <- _. reflexivity.
  - revert Hresult. unfold ResolveK8sPodResourceClaimToDevice, bind.
    destruct (v1.ResourceClaimName (v1.Source claim)) as [name|].
    { intros Heq _. injection Heq as _ <- _. eexists. reflexivity. }
    unfold resolveK8sPodResourceClaimToResourceClaimTemplate, bind, gets, ret.
    destruct (v1.ResourceClaimTemplateName (v1.Source claim)) as [T|].
    2: { intros Heq _. injection Heq as _ <- _. eexists. reflexivity. }
    destruct (resourceClaimTemplates dm !! T) as [rt|] eqn:Hrt.
    2: { intros Heq _. injection Heq as _ <- _. eexists. reflexivity. }
    intros _ [Hform|[HT|(T' & HT & Hmiss)]].
    + congruence.
    + discriminate.
    + injection HT as <-. congruence.
Qed.

(** ** The CDI qualifier read back *)

Lemma append_separator c a a' r r' :
  contains c a = false ->
  contains c a' = false ->
  a +:+ String c r = a' +:+ String c r' ->
  a = a' /\ r = r'.
Proof.
  revert a'. induction a as [|x a IH]; intros [|y a'] Ha Ha' Heq; simpl in *.
  - injection Heq as ->. split; reflexivity.
  - injection Heq as <- _. rewrite Ascii.eqb_refl in Ha'. discriminate.
  - injection Heq as -> _. rewrite Ascii.eqb_refl in Ha. discriminate.
  - injection Heq as <- Heq.
    destruct (Ascii.eqb x c); [discriminate|].
    destruct (IH a' Ha Ha' Heq) as [-> ->]. split; reflexivity.
Qed.

(** Without the condition the string is ambiguous. *)
Example cdiQualifier_ambiguous :
  cdiQualifier "a/b" "c" "n" = cdiQualifier "a" "b/c" "n".
Proof. reflexivity. Qed.

(** X11: a CDI device string can be read back.  When the vendor parts hold
    no "/" and the device parts no "=", two triples of vendor, device and name
    that give the same string are the same triple. *)
Theorem cdiQualifier_read_back vendorPart devicePart namePart vendorPart' devicePart' namePart' :
  contains "/" vendorPart = false ->
  contains "/" vendorPart' = false ->
  contains "=" devicePart = false ->
  contains "=" devicePart' = false ->
  cdiQualifier vendorPart devicePart namePart = cdiQualifier vendorPart' devicePart' namePart' ->
  vendorPart = vendorPart' /\ devicePart = devicePart' /\ namePart = namePart'.
Proof.
  intros Hv Hv' Hd Hd' Heq. unfold cdiQualifier in Heq. simpl in Heq.
  destruct (append_separator _ _ _ _ _ Hv Hv' Heq) as [-> Hrest].
  destruct (append_separator _ _ _ _ _ Hd Hd' Hrest) as [-> ->].
  repeat split; reflexivity.
Qed.

(** ** What [PrintState] writes *)


Lemma ranges_In {V : Type} (m : gmap string V) visited x :
  ranges m visited -> In x visited <-> exists k, m !! k = Some x.
Proof.
  unfold ranges. intros Hperm.
  rewrite <- list_elem_of_In, Hperm, list_elem_of_fmap. split.
  - intros ([k y] & -> & Hin). exists k. apply elem_of_map_to_list, Hin.
  - intros (k & Hk). exists (k, x). split; [reflexivity|]. apply elem_of_map_to_list, Hk.
Qed.

Lemma PrintState_defined dm : exists stdout, PrintState dm stdout.
Proof.
  exists (printStateVisiting (map_to_list (resourceClaimTemplates dm)).*2
                             (map_to_list (resourceClaimParameters dm)).*2).
  exists (map_to_list (resourceClaimTemplates dm)).*2,
         (map_to_list (resourceClaimParameters dm)).*2.
  unfold ranges. repeat split; reflexivity.
Qed.


(** X13: the lines of an output of [PrintState] are the two headings and,
    for each registered template and each registered parameter set, the line
    with its schema version and its name; nothing else is written. *)
Theorem PrintState_lines dm stdout line :
  PrintState dm stdout ->
  In line stdout
  <-> line = "Templates" +:+ newline
      \/ line = "Claim parameters" +:+ newline
      \/ (exists k rt, resourceClaimTemplates dm !! k = Some rt /\ line = templateLine rt)
      \/ (exists k p, resourceClaimParameters dm !! k = Some p /\ line = parametersLine p).
Proof.
  intros (ts & ps & Hts & Hps & ->). unfold printStateVisiting.
  rewrite in_app_iff. simpl. rewrite !in_map_iff. split.
  - intros [[<-|(rt & <- & Hin)]|[<-|(p & <- & Hin)]].
    + left. reflexivity.
    + right. right. left. apply (ranges_In _ _ _ Hts) in Hin as [k Hk]. eauto.
    + right. left. reflexivity.
    + right. right. right. apply (ranges_In _ _ _ Hps) in Hin as [k Hk]. eauto.
  - intros [->|[->|[(k & rt & Hk & ->)|(k & p & Hk & ->)]]].
    + left. left. reflexivity.
    + right. left. reflexivity.
    + left. right. exists rt. split; [reflexivity|]. apply (ranges_In _ _ _ Hts). eauto.
    + right. right. exists p. split; [reflexivity|]. apply (ranges_In _ _ _ Hps). eauto.
Qed.

(** ** The scenario, continued *)

Lemma registrations_commute_witness :
  snd (AddClaimParameters Scenario.gpu
         (snd (AddClaimParameters Scenario.foo NewDynamicDevicesResourceManager)))
  = snd (AddClaimParameters Scenario.foo
           (snd (AddClaimParameters Scenario.gpu NewDynamicDevicesResourceManager)))
  /\ snd (AddResourceClaimTemplate (Scenario.template "t-gpu" "gpu")
            (snd (AddResourceClaimTemplate (Scenario.template "t-foo" "foo") Scenario.dm)))
     = snd (AddResourceClaimTemplate (Scenario.template "t-foo" "foo")
              (snd (AddResourceClaimTemplate (Scenario.template "t-gpu" "gpu") Scenario.dm))).
Proof.
  split.
  - apply (proj1 (registrations_commute NewDynamicDevicesResourceManager)
             Scenario.foo Scenario.gpu).
    discriminate.
  - apply (proj1 (proj2 (registrations_commute Scenario.dm))
             (Scenario.template "t-foo" "foo") (Scenario.template "t-gpu" "gpu")).
    discriminate.
Defined.

Lemma resolution_settled_witness :
  fst (ResolveK8sPodResourceClaimToDevice (Scenario.byTemplate "t-foo")
         (snd (performAll
                 [CallAddClaimParameters (Scenario.parameters "foo" CDIClaimParametersApiVersion []);
                  CallAddResourceClaimTemplate (Scenario.template "t-foo" "gpu");
                  CallResolve (Scenario.byTemplate "t-gpu");
                  CallAddClaimParameters Scenario.nospec]
                 Scenario.dm)))
  = fst (ResolveK8sPodResourceClaimToDevice (Scenario.byTemplate "t-foo") Scenario.dm).
Proof.
  refine (resolution_settled Scenario.dm (Scenario.byTemplate "t-foo") "t-foo"
            (Scenario.template "t-foo" "foo") Scenario.foo _ _ _ _ _);
    vm_compute; reflexivity.
Defined.

Lemma resolution_reads_schema_and_keys_witness :
  fst (ResolveK8sPodResourceClaimToDevice (Scenario.byTemplate "t-foo") Scenario.dm)
  = fst (ResolveK8sPodResourceClaimToDevice (Scenario.byTemplate "t-foo")
           (snd (performAll
                   [CallAddClaimParameters
                      {| TypeMeta := {| metav1.Kind := "Other";
                                        metav1.APIVersion := SimpleDeviceClaimParametersApiVersion |};
                         ObjectMeta := {| metav1.Name := "elsewhere"; metav1.Namespace := "ns" |};
                         Spec := Some (list_to_map [("hostpath", "/dev/foo"); ("mode", "rw")]) |};
                    CallAddResourceClaimTemplate (Scenario.template "t-foo" "elsewhere")]
                   NewDynamicDevicesResourceManager))).
Proof.
  refine (resolution_reads_schema_and_keys Scenario.dm _ (Scenario.byTemplate "t-foo") "t-foo"
            (Scenario.template "t-foo" "foo") (Scenario.template "t-foo" "elsewhere")
            Scenario.foo
            {| TypeMeta := {| metav1.Kind := "Other";
                              metav1.APIVersion := SimpleDeviceClaimParametersApiVersion |};
               ObjectMeta := {| metav1.Name := "elsewhere"; metav1.Namespace := "ns" |};
               Spec := Some (list_to_map [("hostpath", "/dev/foo"); ("mode", "rw")]) |}
            _ _ _ _ _ _ _ _);
    try (vm_compute; reflexivity).
  repeat constructor; vm_compute; reflexivity.
Defined.

Lemma success_comes_from_registries_witness :
  v1.ResourceClaimName (v1.Source (Scenario.byTemplate "t-gpu")) = None
  /\ exists T rt p,
       v1.ResourceClaimTemplateName (v1.Source (Scenario.byTemplate "t-gpu")) = Some T
       /\ resourceClaimTemplates Scenario.dm !! T = Some rt
       /\ resourceClaimParameters Scenario.dm
            !! v1alpha2.Name (v1alpha2.ParametersRef (v1alpha2.Spec rt)) = Some p
       /\ ((metav1.APIVersion (TypeMeta p) = SimpleDeviceClaimParametersApiVersion
            /\ mapIndex (Spec p) "hostpath" = Some "acme/gpu=0")
           \/ (metav1.APIVersion (TypeMeta p) = CDIClaimParametersApiVersion
               /\ exists d v n,
                    mapIndex (Spec p) "device" = Some d
                    /\ mapIndex (Spec p) "vendor" = Some v
                    /\ mapIndex (Spec p) "name" = Some n
                    /\ "acme/gpu=0" = v +:+ "/" +:+ d +:+ "=" +:+ n)).
Proof.
  refine (success_comes_from_registries Scenario.dm (Scenario.byTemplate "t-gpu")
            "acme/gpu=0" Scenario.dm _).
  vm_compute. reflexivity.
Defined.

Lemma error_prefix_witness :
  stripPrefix "failed to resolve resource claim to device: "
    "missing vendor parameter of CDI claim parameter resource" = None
  /\ exists detail,
       stripPrefix "failed to resolve resource claim to device: "
         "failed to resolve resource claim to device: Pod Resource Claim Source not found"
       = Some detail.
Proof.
  split.
  - refine (proj1 (error_prefix Scenario.dm (Scenario.byTemplate "t-novendor") ""
                     "missing vendor parameter of CDI claim parameter resource"
                     Scenario.dm _)
                  "t-novendor" (Scenario.template "t-novendor" "novendor") _ _ _);
      vm_compute; reflexivity.
  - refine (proj2 (error_prefix Scenario.dm (Scenario.byTemplate "t-none") ""
                     "failed to resolve resource claim to device: Pod Resource Claim Source not found"
                     Scenario.dm _) _).
    + vm_compute. reflexivity.
    + right. right. exists "t-none". split; vm_compute; reflexivity.
Defined.

Lemma cdiQualifier_read_back_witness :
  "acme" = "acme" /\ "gpu" = "gpu" /\ "0=1" = "0=1".
Proof.
  refine (cdiQualifier_read_back "acme" "gpu" "0=1" "acme" "gpu" "0=1" _ _ _ _ _);
    reflexivity.
Defined.


Lemma PrintState_lines_witness :
  exists stdout,
    PrintState Scenario.dm stdout
    /\ In ("  simpledevice.resource.podman.io/v1 - foo" +:+ newline) stdout.
Proof.
  destruct (PrintState_defined Scenario.dm) as [stdout Hprint].
  exists stdout. split; [exact Hprint|].
  apply (PrintState_lines Scenario.dm stdout _ Hprint).
  right. right. right. exists "foo", Scenario.foo. split; vm_compute; reflexivity.
Defined.
